(** * ChatPanel and AgentModePage: client-local state and its update protocol

    Shallow embedding of the state management of two grist-core UI panels:
    - [ChatPanel] (the chat sidebar): the [_messages], [_inputText] and
      [_thinking] observables, [_sendMessage], the placeholder-response timer
      and [_scrollToBottom];
    - [AgentModePage]: the agent logs, [_initializeSampleData],
      [_sendAgentCommand], [_togglePause] and [_clearAgent].

    JS strings are sequences of UTF-16 code units ([list N]).  A grainjs
    [Observable.set] notifies its listeners synchronously, and only when the
    new value differs ([!==]) from the current one: arrays built by the code
    are always fresh objects, strings and booleans compare by value.  Every
    notification is recorded as an event carrying the state its listeners
    observe.  [setTimeout] is recorded as a scheduling event, [Date.now()] as
    a reading of an external clock. *)

From Stdlib Require Import String Ascii ZArith NArith QArith Bool Lia List.
Import ListNotations.
Close Scope Q_scope.
Set Warnings "-register-all".
Open Scope list_scope.

(** ** JS strings *)

Definition jsstring := list N.

(** A string literal of the source, as its code units. *)
Definition js (s : string) : jsstring := map N_of_ascii (list_ascii_of_string s).

Fixpoint jsstr_eqb (a b : jsstring) : bool :=
  match a, b with
  | [], [] => true
  | x :: a', y :: b' => N.eqb x y && jsstr_eqb a' b'
  | _, _ => false
  end.

(** ECMAScript WhiteSpace and LineTerminator code units, the ones
    [String.prototype.trim] strips. *)
Definition js_ws_codes : list N :=
  [9; 10; 11; 12; 13; 32; 160; 5760;
   8192; 8193; 8194; 8195; 8196; 8197; 8198; 8199; 8200; 8201; 8202;
   8232; 8233; 8239; 8287; 12288; 65279]%N.

Definition is_js_ws (c : N) : bool := existsb (N.eqb c) js_ws_codes.

Fixpoint trim_start (s : jsstring) : jsstring :=
  match s with
  | [] => []
  | c :: r => if is_js_ws c then trim_start r else s
  end.

(** [s.trim()] *)
Definition trim (s : jsstring) : jsstring := rev (trim_start (rev (trim_start s))).

(** Truthiness of a string ([!message] is [is_empty message]). *)
Definition is_empty (s : jsstring) : bool :=
  match s with [] => true | _ => false end.

(** ** A state, clock and event-trace monad

    [M St Ev A] runs against an external clock ([Date.now()] returns the
    clock's reading at the current tick and advances the tick), threads the
    component state [St] and records the events [Ev] it emits. *)

Section Eff.
Context {St Ev : Type}.

Definition M (A : Type) : Type :=
  (nat -> Z) -> nat -> St -> A * (nat * St * list Ev).

Definition ret {A} (a : A) : M A := fun _ n s => (a, (n, s, [])).

Definition bind {A B} (m : M A) (k : A -> M B) : M B :=
  fun clk n s =>
    let '(a, (n1, s1, e1)) := m clk n s in
    let '(b, (n2, s2, e2)) := k a clk n1 s1 in
    (b, (n2, s2, e1 ++ e2)).

Definition get : M St := fun _ n s => (s, (n, s, [])).
Definition put (s' : St) : M unit := fun _ n _ => (tt, (n, s', [])).
Definition emit (e : Ev) : M unit := fun _ n s => (tt, (n, s, [e])).
Definition date_now : M Z := fun clk n s => (clk n, (S n, s, [])).

End Eff.

Arguments M : clear implicits.

Notation "x <- m ;; k" := (bind m (fun x => k))
  (at level 61, m at next level, right associativity).
Notation "m ;; k" := (bind m (fun _ => k))
  (at level 61, right associativity).

(** Final state and events of a run. *)
Definition final {St Ev A} (r : A * (nat * St * list Ev)) : St :=
  let '(_, (_, s, _)) := r in s.
Definition events {St Ev A} (r : A * (nat * St * list Ev)) : list Ev :=
  let '(_, (_, _, e)) := r in e.

(** ** ChatPanel (src/unnamed/part_000) *)

Module ChatPanel.

Inductive Sender := User | Ai.

(** [ChatMessage] of app/client/models/ChatHistory, with the fields the
    panel reads: sender, message, formula?, error?.message. *)
Record ChatMessage := mkMsg {
  sender : Sender;
  message : jsstring;
  formula : option jsstring;
  error : option jsstring
}.

Record chat := mkChat {
  _messages : list ChatMessage;
  _inputText : jsstring;
  _thinking : bool
}.

Inductive chat_obs := OMessages | OInputText | OThinking.

(** The two [setTimeout] callbacks of the panel. *)
Inductive timer := TScroll | TResponse.

Inductive chat_event :=
| CNotify (o : chat_obs) (snap : chat)   (** listeners of [o] run, seeing [snap] *)
| CSchedule (t : timer) (delay : Z)      (** [setTimeout(t, delay)] *)
| CRun (t : timer).                      (** the browser runs callback [t] *)

Definition CM (A : Type) : Type := M chat chat_event A.

Definition messages_get : CM (list ChatMessage) :=
  c <- get ;; ret (_messages c).

(** [this._messages.get().push(m)]: in-place mutation, no notification. *)
Definition messages_push (m : ChatMessage) : CM unit :=
  c <- get ;; put (mkChat (_messages c ++ [m]) (_inputText c) (_thinking c)).

(** [this._messages.set(l)] with a fresh array: always notifies. *)
Definition messages_set (l : list ChatMessage) : CM unit :=
  c <- get ;;
  let c' := mkChat l (_inputText c) (_thinking c) in
  put c' ;; emit (CNotify OMessages c').

Definition inputText_get : CM jsstring := c <- get ;; ret (_inputText c).

Definition inputText_set (s : jsstring) : CM unit :=
  c <- get ;;
  if jsstr_eqb s (_inputText c) then ret tt else
  let c' := mkChat (_messages c) s (_thinking c) in
  put c' ;; emit (CNotify OInputText c').

Definition thinking_get : CM bool := c <- get ;; ret (_thinking c).

Definition thinking_set (b : bool) : CM unit :=
  c <- get ;;
  if Bool.eqb b (_thinking c) then ret tt else
  let c' := mkChat (_messages c) (_inputText c) b in
  put c' ;; emit (CNotify OThinking c').

Definition setTimeout (t : timer) (delay : Z) : CM unit := emit (CSchedule t delay).

Definition welcome_message : ChatMessage :=
  mkMsg Ai (js "Hi! I'm your AI assistant. I can help you with formulas, data analysis, " ++
            js "and understanding your spreadsheet. What would you like to know?")
        None None.

Definition placeholder_message : ChatMessage :=
  mkMsg Ai (js "I'm ready to help! The AI backend integration is coming soon. " ++
            js "In the meantime, I can show you what the interface will look like.")
        None None.

(** The observables as [Observable.create] makes them. *)
Definition chat_created : chat := mkChat [] [] false.

(** The constructor body: the welcome message. *)
Definition constructor : CM unit := messages_set [welcome_message].

(** [_scrollToBottom]: schedules the scroll, which touches only the DOM. *)
Definition _scrollToBottom : CM unit := setTimeout TScroll 100.

(** [_sendMessage]; resetting the textarea height touches only the DOM. *)
Definition _sendMessage : CM unit :=
  input <- inputText_get ;;
  let message := trim input in
  if is_empty message then ret tt else
  thinking <- thinking_get ;;
  if thinking then ret tt else
  messages_push (mkMsg User message None None) ;;
  msgs <- messages_get ;;
  messages_set msgs ;;
  inputText_set [] ;;
  thinking_set true ;;
  _scrollToBottom ;;
  setTimeout TResponse 1500.

(** The body of the placeholder-response timer of [_sendMessage]. *)
Definition response_callback : CM unit :=
  messages_push placeholder_message ;;
  msgs <- messages_get ;;
  messages_set msgs ;;
  thinking_set false ;;
  _scrollToBottom.

Definition callback (t : timer) : CM unit :=
  match t with
  | TScroll => ret tt
  | TResponse => response_callback
  end.

(** The panel never reads [Date.now()]. *)
Definition no_clock : nat -> Z := fun _ => 0%Z.

Definition run_chat (m : CM unit) (c : chat) := m no_clock 0 c.

Definition ChatPanel_new : chat := final (run_chat constructor chat_created).

(** *** The panel in its environment

    The live panel (or [None] once disposed) and the timers the browser
    still has to run.  Disposing the panel disposes the observables it owns;
    the [setTimeout] calls are not registered with it, so the pending timers
    stay. *)
Record world := mkWorld { panel : option chat; pending : list timer }.

Inductive chat_action :=
| AInput (s : jsstring)   (** the textarea's "input" event *)
| ASend                   (** Enter or the send button: [_sendMessage()] *)
| AFire (i : nat)         (** the browser runs the [i]-th pending timer *)
| ADispose.               (** the panel is disposed *)

Definition scheduled (evs : list chat_event) : list timer :=
  flat_map (fun e => match e with CSchedule t _ => [t] | _ => [] end) evs.

Fixpoint remove_nth {A} (i : nat) (l : list A) : list A :=
  match i, l with
  | _, [] => []
  | O, _ :: r => r
  | S i', x :: r => x :: remove_nth i' r
  end.

Definition world_step (w : world) (a : chat_action) : option (world * list chat_event) :=
  match a, panel w with
  | AInput s, Some c =>
      let r := run_chat (inputText_set s) c in
      Some (mkWorld (Some (final r)) (pending w ++ scheduled (events r)), events r)
  | ASend, Some c =>
      let r := run_chat _sendMessage c in
      Some (mkWorld (Some (final r)) (pending w ++ scheduled (events r)), events r)
  | AFire i, p =>
      match nth_error (pending w) i with
      | None => None
      | Some t =>
          let rest := remove_nth i (pending w) in
          match p with
          | Some c =>
              let r := run_chat (callback t) c in
              Some (mkWorld (Some (final r)) (rest ++ scheduled (events r)),
                    CRun t :: events r)
          | None =>
              (* the callback runs against the disposed panel *)
              Some (mkWorld None rest, [CRun t])
          end
      end
  | ADispose, Some _ => Some (mkWorld None (pending w), [])
  | _, None => None
  end.

Fixpoint world_run (w : world) (acts : list chat_action) : option (world * list chat_event) :=
  match acts with
  | [] => Some (w, [])
  | a :: rest =>
      match world_step w a with
      | None => None
      | Some (w1, e1) =>
          match world_run w1 rest with
          | None => None
          | Some (w2, e2) => Some (w2, e1 ++ e2)
          end
      end
  end.

Definition world_new : world := mkWorld (Some ChatPanel_new) [].

End ChatPanel.

(** ** JSON.stringify(v, null, 2) *)

Module Json.

Inductive json :=
| JStr (s : jsstring)
| JNum (z : Z)
| JArr (l : list json)
| JObj (l : list (jsstring * json)).

Definition hex_digit (d : N) : N := if (d <? 10)%N then (48 + d)%N else (87 + d)%N.

(** JSON string escaping of one code unit. *)
Definition escape_unit (c : N) : jsstring :=
  if (c =? 34)%N then [92; 34]%N
  else if (c =? 92)%N then [92; 92]%N
  else if (c =? 8)%N then [92; 98]%N
  else if (c =? 12)%N then [92; 102]%N
  else if (c =? 10)%N then [92; 110]%N
  else if (c =? 13)%N then [92; 114]%N
  else if (c =? 9)%N then [92; 116]%N
  else if (c <? 32)%N then [92; 117; 48; 48; hex_digit (c / 16); hex_digit (c mod 16)]%N
  else [c].

Definition quote (s : jsstring) : jsstring := [34%N] ++ flat_map escape_unit s ++ [34%N].

Fixpoint digits (fuel : nat) (n : N) : jsstring :=
  match fuel with
  | O => []
  | S f => if (n <? 10)%N then [48 + n]%N else digits f (n / 10) ++ [48 + n mod 10]%N
  end.

Definition number_to_string (z : Z) : jsstring :=
  let n := Z.to_N (Z.abs z) in
  (if (z <? 0)%Z then [45%N] else []) ++ digits (S (N.size_nat n)) n.

Definition nl : jsstring := [10%N].

Fixpoint spaces (k : nat) : jsstring :=
  match k with O => [] | S k' => 32%N :: spaces k' end.

Fixpoint join (sep : jsstring) (l : list jsstring) : jsstring :=
  match l with
  | [] => []
  | [x] => x
  | x :: r => x ++ sep ++ join sep r
  end.

(** [JSON.stringify] with an indent of 2, at nesting depth [ind]. *)
Fixpoint stringify_at (ind : nat) (v : json) : jsstring :=
  match v with
  | JStr s => quote s
  | JNum z => number_to_string z
  | JArr [] => js "[]"
  | JArr l =>
      js "[" ++ nl ++
      join (js "," ++ nl) (map (fun x => spaces (ind + 2) ++ stringify_at (ind + 2) x) l) ++
      nl ++ spaces ind ++ js "]"
  | JObj [] => js "{}"
  | JObj l =>
      js "{" ++ nl ++
      join (js "," ++ nl)
        (map (fun kv => spaces (ind + 2) ++ quote (fst kv) ++ js ": " ++
                        stringify_at (ind + 2) (snd kv)) l) ++
      nl ++ spaces ind ++ js "}"
  end.

Definition stringify (v : json) : jsstring := stringify_at 0 v.

End Json.

(** ** AgentModePage (src/app/client/components/AgentModePage.ts) *)

Module AgentModePage.

Module Thought.
Inductive kind := thinking | planning | executing | completed | error.
Record t := mk { timestamp : Z; type : kind; message : jsstring }.
End Thought.

(** Rows of the sample "data" result. *)
Record Row := mkRow { customer : jsstring; revenue : Q; orders : Z }.

(** The [result] payloads the page builds: value, data or error. *)
Inductive ActionResult :=
| RValue (value : jsstring)
| RData (data : list Row)
| RError (error : jsstring).

Module Action.
Inductive kind := read | write | query | formula | permission_denied.
Inductive status := success | error | pending.
Record t := mk {
  id : jsstring; timestamp : Z; type : kind; description : jsstring;
  status_ : status; duration : option Q; result : option ActionResult }.
End Action.

Module Step.
Inductive status := running | completed | error.
Record t := mk {
  id : jsstring; title : jsstring; details : list jsstring; duration : Q; status_ : status }.
End Step.

Record agent := mkAgent {
  _thoughts : list Thought.t;
  _actions : list Action.t;
  _executionSteps : list Step.t;
  _schema : jsstring;
  _memoryContext : list jsstring;
  _generatedCode : jsstring;
  _isPaused : bool;
  _autoScroll : bool;
  _selectedAction : option Action.t;   (** [None] is [null] *)
  _livePreviewEnabled : bool
}.

Inductive agent_obs :=
| OThoughts | OActions | OExecutionSteps | OSchema | OMemoryContext
| OGeneratedCode | OIsPaused | OSelectedAction.

Inductive agent_event := ANotify (o : agent_obs) (snap : agent).

Definition AM (A : Type) : Type := M agent agent_event A.

(** [o.set(v)]: when [changed], store the value and notify [o]'s listeners. *)
Definition obs_set (o : agent_obs) (changed : agent -> bool) (upd : agent -> agent) : AM unit :=
  a <- get ;;
  if changed a then (let a' := upd a in put a' ;; emit (ANotify o a')) else ret tt.

Definition always : agent -> bool := fun _ => true.

Definition thoughts_set (l : list Thought.t) : AM unit :=
  obs_set OThoughts always (fun a => mkAgent l (_actions a) (_executionSteps a) (_schema a)
    (_memoryContext a) (_generatedCode a) (_isPaused a) (_autoScroll a)
    (_selectedAction a) (_livePreviewEnabled a)).

(** [this._thoughts.get().push(x)]: in-place, no notification. *)
Definition thoughts_push (x : Thought.t) : AM unit :=
  a <- get ;;
  put (mkAgent (_thoughts a ++ [x]) (_actions a) (_executionSteps a) (_schema a)
    (_memoryContext a) (_generatedCode a) (_isPaused a) (_autoScroll a)
    (_selectedAction a) (_livePreviewEnabled a)).

Definition actions_set (l : list Action.t) : AM unit :=
  obs_set OActions always (fun a => mkAgent (_thoughts a) l (_executionSteps a) (_schema a)
    (_memoryContext a) (_generatedCode a) (_isPaused a) (_autoScroll a)
    (_selectedAction a) (_livePreviewEnabled a)).

Definition executionSteps_set (l : list Step.t) : AM unit :=
  obs_set OExecutionSteps always (fun a => mkAgent (_thoughts a) (_actions a) l (_schema a)
    (_memoryContext a) (_generatedCode a) (_isPaused a) (_autoScroll a)
    (_selectedAction a) (_livePreviewEnabled a)).

Definition memoryContext_set (l : list jsstring) : AM unit :=
  obs_set OMemoryContext always (fun a => mkAgent (_thoughts a) (_actions a)
    (_executionSteps a) (_schema a) l (_generatedCode a) (_isPaused a) (_autoScroll a)
    (_selectedAction a) (_livePreviewEnabled a)).

Definition schema_set (s : jsstring) : AM unit :=
  obs_set OSchema (fun a => negb (jsstr_eqb s (_schema a)))
    (fun a => mkAgent (_thoughts a) (_actions a) (_executionSteps a) s
    (_memoryContext a) (_generatedCode a) (_isPaused a) (_autoScroll a)
    (_selectedAction a) (_livePreviewEnabled a)).

Definition generatedCode_set (s : jsstring) : AM unit :=
  obs_set OGeneratedCode (fun a => negb (jsstr_eqb s (_generatedCode a)))
    (fun a => mkAgent (_thoughts a) (_actions a) (_executionSteps a) (_schema a)
    (_memoryContext a) s (_isPaused a) (_autoScroll a)
    (_selectedAction a) (_livePreviewEnabled a)).

Definition isPaused_set (b : bool) : AM unit :=
  obs_set OIsPaused (fun a => negb (Bool.eqb b (_isPaused a)))
    (fun a => mkAgent (_thoughts a) (_actions a) (_executionSteps a) (_schema a)
    (_memoryContext a) (_generatedCode a) b (_autoScroll a)
    (_selectedAction a) (_livePreviewEnabled a)).

(** Objects compare by reference: only [null] to [null] is no change. *)
Definition selectedAction_set (v : option Action.t) : AM unit :=
  obs_set OSelectedAction
    (fun a => match v, _selectedAction a with None, None => false | _, _ => true end)
    (fun a => mkAgent (_thoughts a) (_actions a) (_executionSteps a) (_schema a)
    (_memoryContext a) (_generatedCode a) (_isPaused a) (_autoScroll a)
    v (_livePreviewEnabled a)).

Definition thoughts_get : AM (list Thought.t) := a <- get ;; ret (_thoughts a).
Definition actions_get : AM (list Action.t) := a <- get ;; ret (_actions a).
Definition isPaused_get : AM bool := a <- get ;; ret (_isPaused a).

(** The observables as [Observable.create] makes them. *)
Definition agent_created : agent :=
  mkAgent [] [] [] [] [] [] false true None true.

Definition sample_thoughts (t0 t1 t2 t3 : Z) : list Thought.t :=
  [ Thought.mk (t0 - 5000) Thought.thinking (js "Analyzing document structure...");
    Thought.mk (t1 - 4000) Thought.planning (js "Planning query execution strategy");
    Thought.mk (t2 - 2000) Thought.executing (js "Executing SUM aggregation on Orders table");
    Thought.mk (t3 - 1000) Thought.completed (js "Query completed successfully") ].

Definition sample_steps : list Step.t :=
  [ Step.mk (js "1") (js "Schema Analysis")
      [js "Tables: Orders, Products, Customers"; js "Relationships detected: 3";
       js "Columns analyzed: 42"] 1.2 Step.completed;
    Step.mk (js "2") (js "Query Planning")
      [js "Target: SUM(Orders.total)"; js "Filters: date > 2024-01-01";
       js "Optimization: Index scan"] 0.8 Step.completed;
    Step.mk (js "3") (js "Formula Generation")
      [js "Function: AGGREGATE"; js "Parameters validated"] 0.3 Step.running ].

Definition sample_actions (t0 t1 t2 t3 : Z) : list Action.t :=
  [ Action.mk (js "1") (t0 - 10000) Action.read (js "Read document schema")
      Action.success (Some 45%Q) (Some (RValue (js "3 tables, 42 columns")));
    Action.mk (js "2") (t1 - 8000) Action.query
      (js "Executed aggregation query: SUM(Orders.total)")
      Action.success (Some 120%Q) (Some (RValue (js "$45,678.90")));
    Action.mk (js "3") (t2 - 5000) Action.query (js "Fetched top 5 customers by revenue")
      Action.success (Some 89%Q)
      (Some (RData [ mkRow (js "Acme Corp") 15234.50 23;
                     mkRow (js "TechStart Inc") 12456.00 18;
                     mkRow (js "Global Traders") 9876.30 15;
                     mkRow (js "Smith & Co") 8654.20 12;
                     mkRow (js "Data Systems") 7543.10 10 ]));
    Action.mk (js "4") (t3 - 3000) Action.permission_denied (js "Attempted to delete records")
      Action.error None
      (Some (RError (js "Permission denied: DELETE operation requires admin access"))) ].

Definition sample_schema : Json.json :=
  Json.JObj
    [ (js "tables", Json.JArr
        [ Json.JObj [ (js "name", Json.JStr (js "Orders"));
                      (js "columns", Json.JArr (map (fun c => Json.JStr (js c))
                                      ["id"; "customer_id"; "total"; "date"]%string));
                      (js "rowCount", Json.JNum 1523) ];
          Json.JObj [ (js "name", Json.JStr (js "Products"));
                      (js "columns", Json.JArr (map (fun c => Json.JStr (js c))
                                      ["id"; "name"; "price"; "category"]%string));
                      (js "rowCount", Json.JNum 89) ] ]);
      (js "relationships", Json.JArr
        [ Json.JObj [ (js "from", Json.JStr (js "Orders.customer_id"));
                      (js "to", Json.JStr (js "Customers.id")) ] ]) ].

Definition sample_generated_code : jsstring :=
  js "# Generated Formula" ++ Json.nl ++ js "SUM(Orders.total)" ++ Json.nl ++ Json.nl ++
  js "# Filter Condition" ++ Json.nl ++ js "Orders.date > DATE(2024, 1, 1)" ++ Json.nl ++
  Json.nl ++
  js "# Execution Plan" ++ Json.nl ++ js "# 1. Scan Orders table" ++ Json.nl ++
  js "# 2. Apply date filter" ++ Json.nl ++ js "# 3. Aggregate totals".

Definition sample_memory : list jsstring :=
  [ js "User asked about total sales for 2024";
    js "Identified Orders table contains sales data";
    js "Date column format: YYYY-MM-DD";
    js "Total column is numeric (currency)" ].

(** [_initializeSampleData]: [Date.now()] is read once per thought and per
    action, in the order the array literals are evaluated. *)
Definition _initializeSampleData : AM unit :=
  t0 <- date_now ;; t1 <- date_now ;; t2 <- date_now ;; t3 <- date_now ;;
  thoughts_set (sample_thoughts t0 t1 t2 t3) ;;
  executionSteps_set sample_steps ;;
  a0 <- date_now ;; a1 <- date_now ;; a2 <- date_now ;; a3 <- date_now ;;
  actions_set (sample_actions a0 a1 a2 a3) ;;
  acts <- actions_get ;;
  selectedAction_set (nth_error acts 2) ;;
  schema_set (Json.stringify sample_schema) ;;
  generatedCode_set sample_generated_code ;;
  memoryContext_set sample_memory.

(** The thought [_sendAgentCommand] records: [Processing: "${command}"]. *)
Definition processing_message (command : jsstring) : jsstring :=
  js "Processing: " ++ [34%N] ++ command ++ [34%N].

(** [_sendAgentCommand]; the [console.log] has no effect on the state. *)
Definition _sendAgentCommand (command : jsstring) : AM unit :=
  if is_empty (trim command) then ret tt else
  now <- date_now ;;
  thoughts_push (Thought.mk now Thought.thinking (processing_message command)) ;;
  l <- thoughts_get ;;
  thoughts_set l.

Definition _togglePause : AM unit :=
  p <- isPaused_get ;; isPaused_set (negb p).

Definition _clearAgent : AM unit :=
  thoughts_set [] ;;
  actions_set [] ;;
  executionSteps_set [] ;;
  memoryContext_set [].

(** The constructor: the "cancel" command group is bound to [_clearAgent];
    then the sample data. *)
Definition constructor : AM unit := _initializeSampleData.

Definition AgentModePage_new (clk : nat -> Z) : agent :=
  final (constructor clk 0 agent_created).

(** The page's state-changing UI actions: a command from the chat textarea,
    the pause button, the clear button or the "cancel" command. *)
Inductive agent_action := AgCommand (s : jsstring) | AgTogglePause | AgClear.

(** A thought or action with its [Date.now()]-based timestamp erased. *)
Definition erase_thought (t : Thought.t) : Thought.t :=
  Thought.mk 0 (Thought.type t) (Thought.message t).

Definition erase_action (x : Action.t) : Action.t :=
  Action.mk (Action.id x) 0 (Action.type x) (Action.description x) (Action.status_ x)
    (Action.duration x) (Action.result x).

Definition agent_op (x : agent_action) : AM unit :=
  match x with
  | AgCommand s => _sendAgentCommand s
  | AgTogglePause => _togglePause
  | AgClear => _clearAgent
  end.

End AgentModePage.

(** ** The views and key handlers built on the state *)

Module ChatView.
Import ChatPanel.

(** The send button's [disabled] class:
    [use => !use(this._inputText).trim() || use(this._thinking)]. *)
Definition send_disabled (c : chat) : bool := is_empty (trim (_inputText c)) || _thinking c.

(** The content of a message bubble: a user's text, or the AI's markdown with
    the optional formula preview (and its Apply/Preview buttons) and the
    optional error line. *)
Inductive msg_body :=
| UserText (text : jsstring)
| AiContent (markdown : jsstring) (formula_preview : option jsstring)
            (error_text : option jsstring).

Record msg_view := mkView { cls_user : bool; cls_ai : bool; body : msg_body }.

Definition default_error : jsstring := js "An error occurred".

(** [_buildMessage]: [msg.formula ? ... : null] hides an empty formula;
    [msg.error.message || "An error occurred"] replaces an empty message. *)
Definition _buildMessage (msg : ChatMessage) : msg_view :=
  let isUser := match sender msg with User => true | Ai => false end in
  mkView isUser (negb isUser)
    (if isUser then UserText (message msg)
     else AiContent (message msg)
            (match formula msg with
             | Some f => if is_empty f then None else Some f
             | None => None
             end)
            (match error msg with
             | Some m => Some (if is_empty m then default_error else m)
             | None => None
             end)).

(** The bubbles [dom.forEach(this._messages, msg => this._buildMessage(msg))]
    builds from the log. *)
Definition message_bubbles (c : chat) : list msg_view := map _buildMessage (_messages c).

(** What a grainjs [dom(...)] argument callback [elem => ...] returns: nothing,
    or the element it was given. *)
Inductive callback_result := CbUndefined | CbSelf.

Inductive dom_error := HierarchyRequestError.

(** grainjs applies a callback's non-null return value as a further argument;
    a returned node is appended with [appendChild], and appending an element
    to itself throws. *)
Definition apply_callback (r : callback_result) : unit + dom_error :=
  match r with
  | CbUndefined => inl tt
  | CbSelf => inr HierarchyRequestError
  end.

(** The scroll anchor [dom("div", elem => this._messagesEndRef = elem)]: the
    assignment expression evaluates to [elem]. *)
Definition messages_end_ref : callback_result := CbSelf.

(** [_buildMessagesArea]: the anchor div is an argument of
    [cssChatMessages(...)] and is built first; only if that succeeds would the
    container hold the bubbles and, while [_thinking], the indicator. *)
Definition _buildMessagesArea (c : chat) : (list msg_view * bool) + dom_error :=
  match apply_callback messages_end_ref with
  | inl _ => inl (message_bubbles c, _thinking c)
  | inr err => inr err
  end.

(** Number of placeholder-response timers still pending. *)
Fixpoint responses (l : list timer) : nat :=
  match l with
  | [] => 0
  | TResponse :: r => S (responses r)
  | TScroll :: r => responses r
  end.

(** A user entry as [_sendMessage] builds it. *)
Definition user_entry (u : ChatMessage) : Prop :=
  sender u = User /\ message u <> [] /\ trim (message u) = message u /\
  formula u = None /\ error u = None.

(** The shape of a session: the welcome message, then user entries each
    answered by the placeholder, then the unanswered user entry while busy;
    exactly one response timer is pending while busy, none otherwise. *)
Definition chat_inv (w : world) : Prop :=
  match panel w with
  | Some c =>
      exists us, Forall user_entry us /\
        ((_thinking c = false /\
          _messages c = welcome_message :: flat_map (fun u => [u; placeholder_message]) us /\
          responses (pending w) = 0) \/
         (_thinking c = true /\
          exists u, user_entry u /\
          _messages c = welcome_message :: flat_map (fun u => [u; placeholder_message]) us ++ [u] /\
          responses (pending w) = 1))
  | None => responses (pending w) <= 1
  end.

End ChatView.

Module AgentView.
Import AgentModePage.

(** The header badge and pause button:
    [use(this._isPaused) ? t("Paused") : t("Active")], the dot's [-active]
    class [!use(this._isPaused)], the icon [isPaused ? "Play" : "Pause"]. *)
Definition status_text (a : agent) : jsstring :=
  if _isPaused a then js "Paused" else js "Active".
Definition status_dot_active (a : agent) : bool := negb (_isPaused a).
Definition pause_icon (a : agent) : jsstring := if _isPaused a then js "Play" else js "Pause".

(** [_buildActionHistory]'s empty state:
    [dom.maybe(use => use(this._actions).length === 0, ...)]. *)
Definition history_empty_state (a : agent) : bool := Nat.eqb (List.length (_actions a)) 0.

Definition kind_name (k : Action.kind) : jsstring :=
  match k with
  | Action.read => js "read"
  | Action.write => js "write"
  | Action.query => js "query"
  | Action.formula => js "formula"
  | Action.permission_denied => js "permission_denied"
  end.

(** [s.replace(pat, rep)] with a one-unit string pattern: the first
    occurrence only. *)
Fixpoint replace_first (pat rep : N) (s : jsstring) : jsstring :=
  match s with
  | [] => []
  | c :: r => if N.eqb c pat then rep :: r else c :: replace_first pat rep r
  end.

(** [_buildActionItem]'s type label: [action.type.replace("_", " ")]. *)
Definition type_label (x : Action.t) : jsstring := replace_first 95 32 (kind_name (Action.type x)).

(** [action.duration && cssActionDuration(...)]: shown for a truthy duration. *)
Definition shows_duration (x : Action.t) : bool :=
  match Action.duration x with
  | Some q => negb (Qeq_bool q 0)
  | None => false
  end.

(** A session of page operations from a state, with the clock at tick [n]. *)
Fixpoint agent_session (clk : nat -> Z) (n : nat) (a : agent) (xs : list agent_action) : agent :=
  match xs with
  | [] => a
  | x :: r => let '(_, (n1, a1, _)) := agent_op x clk n a in agent_session clk n1 a1 r
  end.

(** A thought as [_sendAgentCommand] records it. *)
Definition command_thought (t : Thought.t) : Prop :=
  Thought.type t = Thought.thinking /\
  exists cmd, trim cmd <> [] /\ Thought.message t = processing_message cmd.

(** The operations that record a thought: non-blank commands. *)
Definition counted (x : agent_action) : bool :=
  match x with AgCommand s => negb (is_empty (trim s)) | _ => false end.

End AgentView.

(** ** Properties *)

Import ChatPanel.

(** *** Strings *)

Lemma trim_start_all_ws (s : jsstring) :
  Forall (fun u => is_js_ws u = true) s -> trim_start s = [].
Proof.
  induction s as [|u s IH]; intros H; [reflexivity|].
  inversion H as [|? ? Hu Hs]; subst; simpl; rewrite Hu; auto.
Qed.

Lemma trim_all_ws (s : jsstring) :
  Forall (fun u => is_js_ws u = true) s -> trim s = [].
Proof. intros H; unfold trim; rewrite (trim_start_all_ws s H); reflexivity. Qed.

Lemma is_empty_false (s : jsstring) : s <> [] -> is_empty s = false.
Proof. destruct s; [congruence | reflexivity]. Qed.

(** *** ChatPanel: one step at a time *)

Lemma sendMessage_noop (c : chat) :
  (is_empty (trim (_inputText c)) = true \/ _thinking c = true) ->
  run_chat _sendMessage c = (tt, (0, c, [])).
Proof.
  destruct c as [ms i th]; simpl; intros H.
  unfold run_chat, _sendMessage, bind, inputText_get, thinking_get, get, ret; simpl.
  destruct (is_empty (trim i)) eqn:E; [reflexivity|].
  destruct H as [H|H]; [discriminate|subst; reflexivity].
Qed.

Lemma sendMessage_accept (c : chat) :
  trim (_inputText c) <> [] -> _thinking c = false ->
  let u := mkMsg User (trim (_inputText c)) None None in
  run_chat _sendMessage c =
    (tt, (0, mkChat (_messages c ++ [u]) [] true,
          [CNotify OMessages (mkChat (_messages c ++ [u]) (_inputText c) false);
           CNotify OInputText (mkChat (_messages c ++ [u]) [] false);
           CNotify OThinking (mkChat (_messages c ++ [u]) [] true);
           CSchedule TScroll 100; CSchedule TResponse 1500])).
Proof.
  destruct c as [ms i th]; simpl; intros H Hth; subst th.
  unfold run_chat, _sendMessage, bind, inputText_get, thinking_get, get, ret,
    messages_push, messages_get, messages_set, inputText_set, thinking_set,
    _scrollToBottom, setTimeout, put, emit; simpl.
  rewrite (is_empty_false _ H).
  destruct i as [|u i']; [contradiction H; reflexivity|]; reflexivity.
Qed.

Lemma response_callback_run (c : chat) :
  final (run_chat response_callback c) =
    mkChat (_messages c ++ [placeholder_message]) (_inputText c) false.
Proof.
  destruct c as [ms i [|]]; reflexivity.
Qed.

Lemma inputText_set_messages (s : jsstring) (c : chat) :
  _messages (final (run_chat (inputText_set s) c)) = _messages c.
Proof.
  destruct c as [ms i th]; unfold run_chat, inputText_set, bind, get, put, emit, ret; simpl.
  destruct (jsstr_eqb s i); reflexivity.
Qed.

Lemma inputText_set_schedules (s : jsstring) (c : chat) :
  scheduled (events (run_chat (inputText_set s) c)) = [].
Proof.
  destruct c as [ms i th]; unfold run_chat, inputText_set, bind, get, put, emit, ret; simpl.
  destruct (jsstr_eqb s i); reflexivity.
Qed.

Lemma sendMessage_messages (c : chat) :
  exists l, _messages (final (run_chat _sendMessage c)) = _messages c ++ l.
Proof.
  destruct (is_empty (trim (_inputText c))) eqn:E.
  - exists []; rewrite sendMessage_noop by auto; simpl; symmetry; apply app_nil_r.
  - destruct (_thinking c) eqn:T.
    + exists []; rewrite sendMessage_noop by auto; simpl; symmetry; apply app_nil_r.
    + rewrite sendMessage_accept; [eexists; reflexivity| |exact T].
      intros H; rewrite H in E; discriminate.
Qed.

Lemma callback_messages (t : timer) (c : chat) :
  exists l, _messages (final (run_chat (callback t) c)) = _messages c ++ l.
Proof.
  destruct t.
  - exists []; symmetry; apply app_nil_r.
  - rewrite response_callback_run; eexists; reflexivity.
Qed.

(** Every step that leaves a live panel came from a live panel, and its
    conversation log extends the one before. *)
Lemma world_step_prefix (w w' : world) (a : chat_action) (e : list chat_event) (c' : chat) :
  world_step w a = Some (w', e) -> panel w' = Some c' ->
  exists c l, panel w = Some c /\ _messages c' = _messages c ++ l.
Proof.
  destruct w as [[c|] p]; destruct a as [s| |i|]; simpl; intros Hs Hp;
    try discriminate.
  - injection Hs as <- _; simpl in Hp; injection Hp as <-.
    exists c, []; rewrite inputText_set_messages, app_nil_r; auto.
  - injection Hs as <- _; simpl in Hp; injection Hp as <-.
    destruct (sendMessage_messages c) as [l Hl]; eauto.
  - destruct (nth_error p i) as [t|]; [|discriminate].
    injection Hs as <- _; simpl in Hp; injection Hp as <-.
    destruct (callback_messages t c) as [l Hl]; eauto.
  - injection Hs as <- _; discriminate.
  - destruct (nth_error p i) as [t|]; [|discriminate].
    injection Hs as <- _; discriminate.
Qed.

Lemma world_run_prefix (acts : list chat_action) :
  forall (w w' : world) (e : list chat_event) (c' : chat),
  world_run w acts = Some (w', e) -> panel w' = Some c' ->
  exists c l, panel w = Some c /\ _messages c' = _messages c ++ l.
Proof.
  induction acts as [|a acts IH]; simpl; intros w w' e c' Hr Hp.
  - injection Hr as <- _; exists c', []; rewrite app_nil_r; auto.
  - destruct (world_step w a) as [[w1 e1]|] eqn:Hs; [|discriminate].
    destruct (world_run w1 acts) as [[w2 e2]|] eqn:Hr'; [|discriminate].
    injection Hr as <- _.
    destruct (IH _ _ _ _ Hr' Hp) as (c1 & l1 & Hc1 & Hl1).
    destruct (world_step_prefix _ _ _ _ _ Hs Hc1) as (c & l & Hc & Hl).
    exists c, (l ++ l1); split; [exact Hc|].
    rewrite Hl1, Hl, app_assoc; reflexivity.
Qed.

Lemma world_run_cons (w : world) (a : chat_action) (acts : list chat_action) :
  world_run w (a :: acts) =
    match world_step w a with
    | None => None
    | Some (w1, e1) =>
        match world_run w1 acts with
        | None => None
        | Some (w2, e2) => Some (w2, e1 ++ e2)
        end
    end.
Proof. reflexivity. Qed.

Lemma remove_nth_app {A} (l1 l2 : list A) (i : nat) :
  remove_nth (length l1 + i) (l1 ++ l2) = l1 ++ remove_nth i l2.
Proof. induction l1 as [|x l1 IH]; simpl; [reflexivity|]; rewrite IH; reflexivity. Qed.

Lemma nth_error_app_len {A} (l1 l2 : list A) (i : nat) :
  nth_error (l1 ++ l2) (length l1 + i) = nth_error l2 i.
Proof. induction l1 as [|x l1 IH]; simpl; auto. Qed.

Lemma send_world_step (w : world) (c : chat) :
  panel w = Some c -> trim (_inputText c) <> [] -> _thinking c = false ->
  let u := mkMsg User (trim (_inputText c)) None None in
  world_step w ASend =
    Some (mkWorld (Some (mkChat (_messages c ++ [u]) [] true))
                  (pending w ++ [TScroll; TResponse]),
          [CNotify OMessages (mkChat (_messages c ++ [u]) (_inputText c) false);
           CNotify OInputText (mkChat (_messages c ++ [u]) [] false);
           CNotify OThinking (mkChat (_messages c ++ [u]) [] true);
           CSchedule TScroll 100; CSchedule TResponse 1500]).
Proof.
  destruct w as [p pend]; simpl; intros -> H Hth.
  rewrite (sendMessage_accept c H Hth); reflexivity.
Qed.

(** C1: sending a non-empty message while not busy appends exactly one
    user entry, notifies it before the response timer is scheduled (the
    response is scheduled last), and when that timer fires exactly one AI
    entry with the placeholder text follows the user entry and the busy flag
    is cleared.  The response callback, whatever the state, appends exactly
    the placeholder and leaves the flag false. *)
Theorem send_message_then_response (w : world) (c : chat) :
  panel w = Some c -> trim (_inputText c) <> [] -> _thinking c = false ->
  let u := mkMsg User (trim (_inputText c)) None None in
  world_step w ASend =
    Some (mkWorld (Some (mkChat (_messages c ++ [u]) [] true))
                  (pending w ++ [TScroll; TResponse]),
          [CNotify OMessages (mkChat (_messages c ++ [u]) (_inputText c) false);
           CNotify OInputText (mkChat (_messages c ++ [u]) [] false);
           CNotify OThinking (mkChat (_messages c ++ [u]) [] true);
           CSchedule TScroll 100; CSchedule TResponse 1500]) /\
  (exists e, world_run w [ASend; AFire (length (pending w) + 1)] =
     Some (mkWorld (Some (mkChat (_messages c ++ [u; placeholder_message]) [] false))
                   (pending w ++ [TScroll; TScroll]), e)) /\
  sender placeholder_message = Ai /\
  (forall c', final (run_chat response_callback c') =
     mkChat (_messages c' ++ [placeholder_message]) (_inputText c') false).
Proof.
  intros Hp H Hth u.
  pose proof (send_world_step w c Hp H Hth) as Hs.
  split; [exact Hs|]. split; [|split; [reflexivity | apply response_callback_run]].
  rewrite world_run_cons, Hs, world_run_cons; simpl.
  rewrite nth_error_app_len, remove_nth_app; simpl.
  eexists; rewrite <- !app_assoc; reflexivity.
Qed.

Lemma send_message_then_response_witness :
  let c := mkChat [welcome_message] (js "hi") false in
  (panel (mkWorld (Some c) []) = Some c /\ trim (_inputText c) <> [] /\ _thinking c = false) /\
  (exists e, world_run (mkWorld (Some c) []) [ASend; AFire 1] =
     Some (mkWorld (Some (mkChat [welcome_message; mkMsg User (js "hi") None None;
                                  placeholder_message] [] false)) [TScroll; TScroll], e)).
Proof.
  intros c; split; [split; [reflexivity | split; [discriminate | reflexivity]]|].
  destruct (send_message_then_response (mkWorld (Some c) []) c eq_refl
              ltac:(discriminate) eq_refl) as [_ [He _]].
  exact He.
Defined.

(** C3: sending while the busy flag is set changes nothing: the state
    (log, input buffer, busy flag) is the same, nothing is notified and no
    timer is scheduled. *)
Theorem send_while_busy_noop (w : world) (c : chat) :
  panel w = Some c -> _thinking c = true ->
  run_chat _sendMessage c = (tt, (0, c, [])) /\ world_step w ASend = Some (w, []).
Proof.
  intros Hp Hth.
  assert (Hr : run_chat _sendMessage c = (tt, (0, c, []))) by (apply sendMessage_noop; auto).
  split; [exact Hr|].
  destruct w as [p pend]; simpl in *; subst p; rewrite Hr; simpl; rewrite app_nil_r; reflexivity.
Qed.

Lemma send_while_busy_noop_witness :
  let c := mkChat [welcome_message] (js "hi") true in
  run_chat _sendMessage c = (tt, (0, c, [])).
Proof.
  intros c; exact (proj1 (send_while_busy_noop (mkWorld (Some c) []) c eq_refl eq_refl)).
Defined.

(** C2, as stated, fails: after a send the panel is disposed, and the
    browser still runs the pending placeholder-response callback. *)
Lemma dispose_does_not_cancel_response :
  exists w2 e2,
    world_run (mkWorld (Some (mkChat [welcome_message] (js "hi") false)) [])
              [ASend; ADispose] = Some (w2, e2) /\
    panel w2 = None /\
    world_step w2 (AFire 1) = Some (mkWorld None [TScroll], [CRun TResponse]).
Proof.
  eexists; eexists; split; [vm_compute; reflexivity|].
  split; vm_compute; reflexivity.
Qed.

(** C2 (amended): disposing the panel revokes no timer.  After an accepted
    send and a disposal the response timer is still pending, and when it
    fires its callback runs against the disposed panel. *)
Theorem dispose_keeps_response_timer (w : world) (c : chat) :
  panel w = Some c -> trim (_inputText c) <> [] -> _thinking c = false ->
  exists e2,
    world_run w [ASend; ADispose] =
      Some (mkWorld None (pending w ++ [TScroll; TResponse]), e2) /\
    world_step (mkWorld None (pending w ++ [TScroll; TResponse]))
               (AFire (length (pending w) + 1)) =
      Some (mkWorld None (pending w ++ [TScroll]), [CRun TResponse]).
Proof.
  intros Hp H Hth.
  rewrite world_run_cons, (send_world_step w c Hp H Hth); simpl.
  eexists; split; [reflexivity|].
  simpl; rewrite nth_error_app_len, remove_nth_app; reflexivity.
Qed.

Lemma dispose_keeps_response_timer_witness :
  let c := mkChat [welcome_message] (js "hi") false in
  exists e2,
    world_run (mkWorld (Some c) []) [ASend; ADispose] =
      Some (mkWorld None [TScroll; TResponse], e2) /\
    world_step (mkWorld None [TScroll; TResponse]) (AFire 1) =
      Some (mkWorld None [TScroll], [CRun TResponse]).
Proof.
  intros c.
  exact (dispose_keeps_response_timer (mkWorld (Some c) []) c eq_refl
           ltac:(discriminate) eq_refl).
Defined.

(** C10: the panel starts with exactly one message, the AI welcome message,
    and since no step removes messages, every live panel reached from it
    still starts with that message. *)
Theorem chat_log_never_empty :
  _messages ChatPanel_new = [welcome_message] /\ sender welcome_message = Ai /\
  (forall acts w e c, world_run world_new acts = Some (w, e) -> panel w = Some c ->
     exists rest, _messages c = welcome_message :: rest).
Proof.
  split; [reflexivity|]. split; [reflexivity|].
  intros acts w e c Hr Hp.
  destruct (world_run_prefix acts _ _ _ _ Hr Hp) as (c0 & l & H0 & Hl).
  simpl in H0; injection H0 as <-.
  exists l; exact Hl.
Qed.

Lemma chat_log_never_empty_witness :
  exists w e c,
    world_run world_new [AInput (js "hi"); ASend; AFire 1] = Some (w, e) /\
    panel w = Some c /\
    exists rest, _messages c = welcome_message :: rest.
Proof.
  destruct (world_run world_new [AInput (js "hi"); ASend; AFire 1]) as [[w e]|] eqn:Hr;
    [|vm_compute in Hr; discriminate].
  destruct (panel w) as [c|] eqn:Hp; [|vm_compute in Hr; injection Hr as <- _; discriminate].
  exists w, e, c; split; [reflexivity|]; split; [exact Hp|].
  exact (proj2 (proj2 chat_log_never_empty) _ w e c Hr Hp).
Defined.

(** *** AgentModePage *)

Import AgentModePage.

Lemma clearAgent_run (clk : nat -> Z) (n : nat) (a : agent) :
  _clearAgent clk n a =
    (tt, (n,
      mkAgent [] [] [] (_schema a) [] (_generatedCode a) (_isPaused a) (_autoScroll a)
        (_selectedAction a) (_livePreviewEnabled a),
      [ANotify OThoughts (mkAgent [] (_actions a) (_executionSteps a) (_schema a)
         (_memoryContext a) (_generatedCode a) (_isPaused a) (_autoScroll a)
         (_selectedAction a) (_livePreviewEnabled a));
       ANotify OActions (mkAgent [] [] (_executionSteps a) (_schema a)
         (_memoryContext a) (_generatedCode a) (_isPaused a) (_autoScroll a)
         (_selectedAction a) (_livePreviewEnabled a));
       ANotify OExecutionSteps (mkAgent [] [] [] (_schema a)
         (_memoryContext a) (_generatedCode a) (_isPaused a) (_autoScroll a)
         (_selectedAction a) (_livePreviewEnabled a));
       ANotify OMemoryContext (mkAgent [] [] [] (_schema a) [] (_generatedCode a)
         (_isPaused a) (_autoScroll a) (_selectedAction a) (_livePreviewEnabled a))])).
Proof. destruct a; reflexivity. Qed.

Lemma sendAgentCommand_blank (command : jsstring) (clk : nat -> Z) (n : nat) (a : agent) :
  is_empty (trim command) = true -> _sendAgentCommand command clk n a = (tt, (n, a, [])).
Proof. intros H; unfold _sendAgentCommand; rewrite H; reflexivity. Qed.

Lemma sendAgentCommand_run (command : jsstring) (clk : nat -> Z) (n : nat) (a : agent) :
  trim command <> [] ->
  let a' := mkAgent (_thoughts a ++
                       [Thought.mk (clk n) Thought.thinking (processing_message command)])
              (_actions a) (_executionSteps a) (_schema a) (_memoryContext a)
              (_generatedCode a) (_isPaused a) (_autoScroll a) (_selectedAction a)
              (_livePreviewEnabled a) in
  _sendAgentCommand command clk n a = (tt, (S n, a', [ANotify OThoughts a'])).
Proof.
  intros H; unfold _sendAgentCommand; rewrite (is_empty_false _ H).
  destruct a; reflexivity.
Qed.

Lemma togglePause_run (clk : nat -> Z) (n : nat) (a : agent) :
  let a' := mkAgent (_thoughts a) (_actions a) (_executionSteps a) (_schema a)
              (_memoryContext a) (_generatedCode a) (negb (_isPaused a)) (_autoScroll a)
              (_selectedAction a) (_livePreviewEnabled a) in
  _togglePause clk n a = (tt, (n, a', [ANotify OIsPaused a'])).
Proof. destruct a as [? ? ? ? ? ? [|] ? ? ?]; reflexivity. Qed.

(** C4: sending an empty or whitespace-only string is a no-op in both
    panels: the ChatPanel step changes nothing and emits no event (no
    notification, no timer), and [_sendAgentCommand] changes nothing,
    emits nothing and reads no clock. *)
Theorem blank_send_noop (s : jsstring) :
  Forall (fun u => is_js_ws u = true) s ->
  (forall w c, panel w = Some c -> _inputText c = s -> world_step w ASend = Some (w, [])) /\
  (forall clk n a, _sendAgentCommand s clk n a = (tt, (n, a, []))).
Proof.
  intros Hs; pose proof (trim_all_ws s Hs) as Ht.
  split.
  - intros [p pend] c Hp Hi; simpl in Hp; subst p.
    simpl; rewrite sendMessage_noop by (left; rewrite Hi, Ht; reflexivity).
    simpl; rewrite app_nil_r; reflexivity.
  - intros clk n a; apply sendAgentCommand_blank; rewrite Ht; reflexivity.
Qed.

Lemma blank_send_noop_witness :
  let s := [32; 9; 12288]%N in
  Forall (fun u => is_js_ws u = true) s /\
  world_step (mkWorld (Some (mkChat [welcome_message] s false)) [TScroll]) ASend =
    Some (mkWorld (Some (mkChat [welcome_message] s false)) [TScroll], []) /\
  _sendAgentCommand s (fun _ => 0%Z) 0 agent_created = (tt, (0, agent_created, [])).
Proof.
  intros s.
  assert (Hs : Forall (fun u => is_js_ws u = true) s) by (repeat constructor).
  split; [exact Hs|]. split.
  - exact (proj1 (blank_send_noop s Hs) (mkWorld (Some (mkChat [welcome_message] s false)) [TScroll])
             (mkChat [welcome_message] s false) eq_refl eq_refl).
  - exact (proj2 (blank_send_noop s Hs) _ _ _).
Defined.

(** C5, as stated, fails: the clear is not atomic for observers.  Clearing
    the seeded page first notifies the thoughts listeners with a state whose
    thoughts are empty while its 4 actions and 3 execution steps remain. *)
Lemma clear_partial_state_observable :
  match events (_clearAgent (fun _ => 0%Z) 8 (AgentModePage_new (fun _ => 0%Z))) with
  | ANotify OThoughts s :: _ =>
      _thoughts s = [] /\ List.length (_actions s) = 4 /\ List.length (_executionSteps s) = 3
  | _ => False
  end.
Proof. vm_compute; split; [reflexivity | split; reflexivity]. Qed.

(** C5 (amended): after [_clearAgent] the thoughts, actions, execution-step
    (and memory-context) logs each have length 0; they are emptied by four
    successive [set] calls, thoughts, actions, execution steps, memory
    context, and the listeners of each run in between, seeing the
    partially cleared states. *)
Theorem clear_empties_logs_in_sequence (clk : nat -> Z) (n : nat) (a : agent) :
  let r := _clearAgent clk n a in
  List.length (_thoughts (final r)) = 0 /\ List.length (_actions (final r)) = 0 /\
  List.length (_executionSteps (final r)) = 0 /\ List.length (_memoryContext (final r)) = 0 /\
  map (fun '(ANotify o s) => (o, List.length (_thoughts s), List.length (_actions s),
                              List.length (_executionSteps s),
                              List.length (_memoryContext s))) (events r) =
    [(OThoughts, 0, List.length (_actions a), List.length (_executionSteps a),
      List.length (_memoryContext a));
     (OActions, 0, 0, List.length (_executionSteps a), List.length (_memoryContext a));
     (OExecutionSteps, 0, 0, 0, List.length (_memoryContext a));
     (OMemoryContext, 0, 0, 0, 0)].
Proof.
  cbv zeta; rewrite clearAgent_run; simpl; repeat split.
Qed.

(** C6, as stated, fails: the seeded thoughts carry [Date.now()]-based
    timestamps, so two runs at different clock readings differ. *)
Lemma seed_depends_on_clock :
  _thoughts (AgentModePage_new (fun _ => 0%Z)) <> _thoughts (AgentModePage_new (fun _ => 1%Z)).
Proof. vm_compute; intros H; discriminate H. Qed.

(** C6 (amended): seeding yields exactly the fixture set (4 thoughts,
    3 execution steps, 4 actions, 4 memory entries, the third action
    selected); the execution steps are the same on every run, and thoughts
    and actions are the same on every run except for their timestamps,
    which are the clock readings minus fixed offsets. *)
Theorem seed_fixture (clk : nat -> Z) :
  let a := AgentModePage_new clk in
  _thoughts a = sample_thoughts (clk 0%nat) (clk 1%nat) (clk 2%nat) (clk 3%nat) /\
  _executionSteps a = sample_steps /\
  _actions a = sample_actions (clk 4%nat) (clk 5%nat) (clk 6%nat) (clk 7%nat) /\
  _memoryContext a = sample_memory /\
  _selectedAction a = nth_error (_actions a) 2 /\
  List.length (_thoughts a) = 4 /\ List.length (_executionSteps a) = 3 /\
  List.length (_actions a) = 4 /\
  (forall clk', let b := AgentModePage_new clk' in
     map erase_thought (_thoughts b) = map erase_thought (_thoughts a) /\
     _executionSteps b = _executionSteps a /\
     map erase_action (_actions b) = map erase_action (_actions a)).
Proof.
  repeat split; reflexivity.
Qed.

(** C7: a command that does not trim to empty appends exactly one thought,
    of type [thinking], whose message is [Processing: "<command>"] stamped
    with the clock; only the thoughts listeners are notified, and the action
    log, the execution-step log and every other field are unchanged, so no
    action, step or response is produced.  A command that trims to empty
    changes nothing. *)
Theorem agent_command_appends_one_thought (command : jsstring) (clk : nat -> Z) (n : nat)
    (a : agent) :
  (trim command <> [] ->
   let a' := mkAgent (_thoughts a ++
                        [Thought.mk (clk n) Thought.thinking (processing_message command)])
               (_actions a) (_executionSteps a) (_schema a) (_memoryContext a)
               (_generatedCode a) (_isPaused a) (_autoScroll a) (_selectedAction a)
               (_livePreviewEnabled a) in
   _sendAgentCommand command clk n a = (tt, (S n, a', [ANotify OThoughts a'])) /\
   List.length (_thoughts a') = S (List.length (_thoughts a)) /\
   _actions a' = _actions a /\ _executionSteps a' = _executionSteps a) /\
  (trim command = [] -> _sendAgentCommand command clk n a = (tt, (n, a, []))).
Proof.
  split.
  - intros H; cbv zeta; rewrite (sendAgentCommand_run command clk n a H).
    simpl; rewrite length_app; simpl; repeat split; lia.
  - intros H; apply sendAgentCommand_blank; rewrite H; reflexivity.
Qed.

Lemma agent_command_appends_one_thought_witness :
  let a := AgentModePage_new (fun _ => 5%Z) in
  (trim (js " sum ") <> [] /\
   List.length (_thoughts (final (_sendAgentCommand (js " sum ") (fun _ => 7%Z) 8 a))) = 5) /\
  (trim (js "  ") = [] /\ _sendAgentCommand (js "  ") (fun _ => 7%Z) 8 a = (tt, (8, a, []))).
Proof.
  cbv zeta; split; split.
  - vm_compute; discriminate.
  - destruct (agent_command_appends_one_thought (js " sum ") (fun _ => 7%Z) 8
                (AgentModePage_new (fun _ => 5%Z))) as [H _].
    destruct (H ltac:(vm_compute; discriminate)) as (-> & Hl & _).
    exact Hl.
  - vm_compute; reflexivity.
  - exact (proj2 (agent_command_appends_one_thought (js "  ") (fun _ => 7%Z) 8
                    (AgentModePage_new (fun _ => 5%Z))) ltac:(vm_compute; reflexivity)).
Defined.

(** C8: outside the clear, the logs only grow.  Every ChatPanel step
    (typing, sending, a timer firing, including the placeholder response)
    that leaves a live panel extends its conversation log; every
    AgentModePage operation other than the clear extends each of its logs;
    toggling pause leaves every log as it was. *)
Theorem logs_grow_monotonically :
  (forall w x w' e c c', world_step w x = Some (w', e) -> panel w = Some c ->
     panel w' = Some c' -> exists l, _messages c' = _messages c ++ l) /\
  (forall x clk n a, x <> AgClear ->
     let a' := final (agent_op x clk n a) in
     (exists l, _thoughts a' = _thoughts a ++ l) /\
     (exists l, _actions a' = _actions a ++ l) /\
     (exists l, _executionSteps a' = _executionSteps a ++ l) /\
     (exists l, _memoryContext a' = _memoryContext a ++ l)) /\
  (forall clk n a, let a' := final (_togglePause clk n a) in
     _thoughts a' = _thoughts a /\ _actions a' = _actions a /\
     _executionSteps a' = _executionSteps a /\ _memoryContext a' = _memoryContext a).
Proof.
  split; [|split].
  - intros w x w' e c c' Hs Hp Hp'.
    destruct (world_step_prefix w w' x e c' Hs Hp') as (c0 & l & H0 & Hl).
    rewrite Hp in H0; injection H0 as <-; eauto.
  - intros [command| |] clk n a Hx; [| |contradiction Hx; reflexivity]; cbv zeta; simpl.
    + destruct (is_empty (trim command)) eqn:E.
      * rewrite (sendAgentCommand_blank command clk n a E); simpl.
        repeat split; exists []; rewrite app_nil_r; reflexivity.
      * assert (H : trim command <> []) by (intros H; rewrite H in E; discriminate).
        rewrite (sendAgentCommand_run command clk n a H); simpl.
        repeat split; eexists; [reflexivity | symmetry; apply app_nil_r ..].
    + rewrite togglePause_run; simpl.
      repeat split; exists []; rewrite app_nil_r; reflexivity.
  - intros clk n a; cbv zeta; rewrite togglePause_run; simpl; repeat split.
Qed.

Lemma logs_grow_monotonically_witness :
  let c0 := mkChat [welcome_message] (js "hi") false in
  let c1 := final (run_chat _sendMessage c0) in
  let a := AgentModePage_new (fun _ => 0%Z) in
  let a1 := final (agent_op (AgCommand (js "go")) (fun _ => 0%Z) 8 a) in
  ((exists l, _messages c1 = _messages c0 ++ l) /\
   List.length (_messages c1) = 2) /\
  ((exists l, _thoughts a1 = _thoughts a ++ l) /\
   List.length (_thoughts a1) = 5 /\ List.length (_thoughts a) = 4).
Proof.
  cbv zeta; split; split.
  - exact (proj1 logs_grow_monotonically
             (mkWorld (Some (mkChat [welcome_message] (js "hi") false)) []) ASend
             (mkWorld (Some (final (run_chat _sendMessage (mkChat [welcome_message] (js "hi") false))))
                (scheduled (events (run_chat _sendMessage (mkChat [welcome_message] (js "hi") false)))))
             (events (run_chat _sendMessage (mkChat [welcome_message] (js "hi") false)))
             (mkChat [welcome_message] (js "hi") false)
             (final (run_chat _sendMessage (mkChat [welcome_message] (js "hi") false)))
             eq_refl eq_refl eq_refl).
  - vm_compute; reflexivity.
  - exact (proj1 (proj1 (proj2 logs_grow_monotonically) (AgCommand (js "go")) (fun _ => 0%Z) 8
                    (AgentModePage_new (fun _ => 0%Z)) ltac:(discriminate))).
  - split; vm_compute; reflexivity.
Defined.

(** C9: [_clearAgent] empties exactly the thoughts, actions, execution-step
    and memory-context lists and leaves every other field as it was (pause
    flag, schema, generated code, auto-scroll, live preview, selected
    action); on the seeded page the selected action stays selected while
    the action log is empty. *)
Theorem clear_frame (clk : nat -> Z) (n : nat) (a : agent) :
  final (_clearAgent clk n a) =
    mkAgent [] [] [] (_schema a) [] (_generatedCode a) (_isPaused a) (_autoScroll a)
      (_selectedAction a) (_livePreviewEnabled a) /\
  (let s := AgentModePage_new clk in
   let s' := final (_clearAgent clk 8 s) in
   _actions s' = [] /\ _selectedAction s' = _selectedAction s /\
   _selectedAction s' = Some (Action.mk (js "3") (clk 6%nat - 5000) Action.query
      (js "Fetched top 5 customers by revenue") Action.success (Some 89%Q)
      (Some (RData [ mkRow (js "Acme Corp") 15234.50 23;
                     mkRow (js "TechStart Inc") 12456.00 18;
                     mkRow (js "Global Traders") 9876.30 15;
                     mkRow (js "Smith & Co") 8654.20 12;
                     mkRow (js "Data Systems") 7543.10 10 ])))).
Proof.
  split; [rewrite clearAgent_run; reflexivity|].
  cbv zeta; rewrite clearAgent_run; simpl.
  repeat split; reflexivity.
Qed.

(** ** Further properties of the panels *)

Import ChatView AgentView.

(** *** [String.prototype.trim] *)

Lemma trim_start_length (s : jsstring) : List.length (trim_start s) <= List.length s.
Proof.
  induction s as [|u s IH]; simpl; [lia|].
  destruct (is_js_ws u); simpl; lia.
Qed.

Lemma trim_start_idem (s : jsstring) : trim_start (trim_start s) = trim_start s.
Proof.
  induction s as [|u s IH]; [reflexivity|]; simpl.
  destruct (is_js_ws u) eqn:E; [exact IH|]; simpl; rewrite E; reflexivity.
Qed.

Lemma trim_start_split (s : jsstring) :
  exists x, s = x ++ trim_start s /\ Forall (fun u => is_js_ws u = true) x.
Proof.
  induction s as [|u s (x & Hx & Hw)]; [exists []; auto|]; simpl.
  destruct (is_js_ws u) eqn:E.
  - exists (u :: x); split; [simpl; rewrite <- Hx; reflexivity | constructor; auto].
  - exists []; auto.
Qed.

Lemma trim_start_fixed_prefix (p q : jsstring) :
  trim_start (p ++ q) = p ++ q -> trim_start p = p.
Proof.
  destruct p as [|y p']; [reflexivity|]; simpl.
  destruct (is_js_ws y) eqn:E; [|reflexivity].
  intros H; exfalso.
  pose proof (trim_start_length (p' ++ q)) as L; rewrite H in L; simpl in L; lia.
Qed.

Lemma trim_idem (s : jsstring) : trim (trim s) = trim s.
Proof.
  unfold trim.
  set (t := trim_start s). set (r := trim_start (rev t)).
  assert (Hr : trim_start (rev r) = rev r).
  { destruct (trim_start_split (rev t)) as (x & Hx & _).
    fold r in Hx.
    assert (Ht : t = rev r ++ rev x) by (rewrite <- rev_app_distr, <- Hx, rev_involutive; reflexivity).
    apply (trim_start_fixed_prefix (rev r) (rev x)).
    rewrite <- Ht; unfold t; apply trim_start_idem. }
  rewrite Hr, rev_involutive; unfold r; rewrite trim_start_idem; reflexivity.
Qed.

(** *** ChatPanel *)

Lemma send_disabled_false (c : chat) :
  send_disabled c = false -> trim (_inputText c) <> [] /\ _thinking c = false.
Proof.
  unfold send_disabled; intros H; apply orb_false_iff in H as [H1 H2].
  split; [intros E; rewrite E in H1; discriminate | exact H2].
Qed.

(** X1: the send button is shown disabled exactly when pressing it would do
    nothing: [_sendMessage] leaves the state unchanged and emits nothing
    (no notification, no timer) iff the button has its [disabled] class. *)
Theorem send_button_disabled_iff_noop (c : chat) :
  send_disabled c = true <-> run_chat _sendMessage c = (tt, (0, c, [])).
Proof.
  split.
  - unfold send_disabled; intros H; apply sendMessage_noop.
    apply orb_true_iff in H; exact H.
  - destruct (send_disabled c) eqn:D; [reflexivity|].
    destruct (send_disabled_false c D) as [H Hth].
    rewrite (sendMessage_accept c H Hth); intros E.
    injection E as E; rewrite <- E in Hth; discriminate.
Qed.

(** X2: an accepted send stores [input.trim()]: exactly one user entry is
    appended, its text is non-empty, has no leading or trailing whitespace
    (trimming it again changes nothing), and carries no formula or error. *)
Theorem sent_message_is_trimmed (c : chat) :
  send_disabled c = false ->
  exists u, _messages (final (run_chat _sendMessage c)) = _messages c ++ [u] /\
            user_entry u /\ message u = trim (_inputText c).
Proof.
  intros D; destruct (send_disabled_false c D) as [H Hth].
  rewrite (sendMessage_accept c H Hth); simpl.
  eexists; split; [reflexivity|]; split; [|reflexivity].
  repeat split; simpl; auto using trim_idem.
Qed.

Lemma sent_message_is_trimmed_witness :
  exists u, _messages (final (run_chat _sendMessage (mkChat [] (js "  hi ") false))) = [u] /\
            user_entry u /\ message u = js "hi".
Proof.
  exact (sent_message_is_trimmed (mkChat [] (js "  hi ") false) eq_refl).
Defined.

Lemma responses_app (l1 l2 : list timer) : responses (l1 ++ l2) = responses l1 + responses l2.
Proof. induction l1 as [|[|] l1 IH]; simpl; auto. Qed.

Lemma responses_remove_nth (p : list timer) (i : nat) (t : timer) :
  nth_error p i = Some t ->
  responses p = responses (remove_nth i p) + (match t with TResponse => 1 | TScroll => 0 end).
Proof.
  revert i; induction p as [|x p IH]; intros [|i] H; simpl in H; try discriminate.
  - injection H as <-; destruct x; simpl; lia.
  - destruct x; simpl; rewrite (IH i H); reflexivity.
Qed.

Lemma inputText_set_final (s : jsstring) (c : chat) :
  _messages (final (run_chat (inputText_set s) c)) = _messages c /\
  _thinking (final (run_chat (inputText_set s) c)) = _thinking c.
Proof.
  destruct c as [ms i th]; unfold run_chat, inputText_set, bind, get, put, emit, ret; simpl.
  destruct (jsstr_eqb s i); auto.
Qed.

Lemma response_callback_scheduled (c : chat) :
  scheduled (events (run_chat response_callback c)) = [TScroll].
Proof. destruct c as [ms i [|]]; reflexivity. Qed.

Lemma chat_inv_step (w w' : world) (a : chat_action) (e : list chat_event) :
  chat_inv w -> world_step w a = Some (w', e) -> chat_inv w'.
Proof.
  destruct w as [[c|] p]; unfold chat_inv; simpl panel; simpl pending.
  - intros (us & Hus & Hc).
    assert (Hle : responses p <= 1) by (destruct Hc as [(_ & _ & R)|(_ & _ & _ & _ & R)]; lia).
    destruct a as [s| |i|]; cbn -[run_chat]; intros Hs.
    + injection Hs as <- _; simpl.
      destruct (inputText_set_final s c) as [Hm Ht].
      rewrite inputText_set_schedules, app_nil_r, Hm, Ht; exists us; auto.
    + injection Hs as <- _; simpl.
      destruct (send_disabled c) eqn:D.
      * apply send_button_disabled_iff_noop in D; rewrite D; simpl.
        rewrite app_nil_r; exists us; auto.
      * destruct (send_disabled_false c D) as [H Hth].
        rewrite (sendMessage_accept c H Hth); simpl.
        destruct Hc as [(_ & Hm & R)|(Ht & _)]; [|congruence].
        exists us; split; [exact Hus|]; right; split; [reflexivity|].
        exists (mkMsg User (trim (_inputText c)) None None).
        split; [repeat split; simpl; auto using trim_idem|].
        rewrite Hm, responses_app, R; split; reflexivity.
    + destruct (nth_error p i) as [t|] eqn:Hn; [|discriminate].
      injection Hs as <- _; simpl.
      pose proof (responses_remove_nth p i t Hn) as Hr.
      destruct t; simpl.
      * simpl in Hr; rewrite Nat.add_0_r in Hr; rewrite app_nil_r, <- Hr; exists us; auto.
      * rewrite response_callback_run, response_callback_scheduled, responses_app; simpl.
        destruct Hc as [(_ & _ & R)|(Ht & u & Hu & Hm & R)]; [lia|].
        exists (us ++ [u]); split; [apply Forall_app; auto|].
        left; split; [reflexivity|]; split; [|lia].
        rewrite Hm, flat_map_app; simpl; rewrite <- app_assoc; reflexivity.
    + injection Hs as <- _; simpl; exact Hle.
  - intros Hle; destruct a as [s| |i|]; cbn -[run_chat]; intros Hs; try discriminate.
    destruct (nth_error p i) as [t|] eqn:Hn; [|discriminate].
    injection Hs as <- _; simpl.
    pose proof (responses_remove_nth p i t Hn) as Hr; destruct t; simpl in Hr, Hle; lia.
Qed.

Lemma reachable_chat_inv (acts : list chat_action) :
  forall w w' e, chat_inv w -> world_run w acts = Some (w', e) -> chat_inv w'.
Proof.
  induction acts as [|a acts IH]; intros w w' e Hi Hr.
  - simpl in Hr; injection Hr as <- _; exact Hi.
  - rewrite world_run_cons in Hr.
    destruct (world_step w a) as [[w1 e1]|] eqn:Hs; [|discriminate].
    destruct (world_run w1 acts) as [[w2 e2]|] eqn:Hr'; [|discriminate].
    injection Hr as <- _.
    exact (IH w1 w2 e2 (chat_inv_step w w1 a e1 Hi Hs) Hr').
Qed.

Lemma chat_inv_new : chat_inv world_new.
Proof. exists []; split; [constructor|]; left; auto. Qed.

(** X3: in every state reachable from a new panel, the conversation is the
    welcome message followed by user entries each answered by the
    placeholder, with one unanswered user entry at the end exactly while the
    panel is busy; a placeholder-response timer is pending exactly while the
    panel is busy, none otherwise; once disposed, at most one response timer
    remains. *)
Theorem session_shape (acts : list chat_action) (w : world) (e : list chat_event) :
  world_run world_new acts = Some (w, e) -> chat_inv w.
Proof.
  intros Hr; exact (reachable_chat_inv acts _ _ _ chat_inv_new Hr).
Qed.

Lemma session_shape_witness :
  exists w e, world_run world_new [AInput (js "sum?"); ASend; AFire 0] = Some (w, e) /\
              chat_inv w.
Proof.
  destruct (world_run world_new [AInput (js "sum?"); ASend; AFire 0]) as [[w e]|] eqn:Hr;
    [|vm_compute in Hr; discriminate].
  exists w, e; split; [reflexivity|].
  exact (session_shape _ w e Hr).
Defined.




(** *** AgentModePage *)

(** X7: the pause toggle flips only the pause flag, with one notification,
    and with it the header's status text (Active/Paused), the status dot's
    [-active] class and the button's icon (Pause/Play); toggling twice
    restores the page exactly. *)
Theorem toggle_pause_status (clk : nat -> Z) (n : nat) (a : agent) :
  let a1 := final (_togglePause clk n a) in
  a1 = mkAgent (_thoughts a) (_actions a) (_executionSteps a) (_schema a)
         (_memoryContext a) (_generatedCode a) (negb (_isPaused a)) (_autoScroll a)
         (_selectedAction a) (_livePreviewEnabled a) /\
  map (fun '(ANotify o _) => o) (events (_togglePause clk n a)) = [OIsPaused] /\
  status_text a1 = (if _isPaused a then js "Active" else js "Paused") /\
  status_dot_active a1 = _isPaused a /\
  pause_icon a1 = (if _isPaused a then js "Pause" else js "Play") /\
  final (_togglePause clk n a1) = a.
Proof.
  cbv zeta; rewrite !togglePause_run; simpl.
  destruct a as [? ? ? ? ? ? [|] ? ? ?]; repeat split.
Qed.

(** X8: clearing is idempotent on the state, but every clear notifies all
    four lists' listeners, even when they are already empty (each [set]
    stores a fresh array). *)
Theorem clear_idempotent (clk : nat -> Z) (n : nat) (a : agent) :
  let a1 := final (_clearAgent clk n a) in
  final (_clearAgent clk n a1) = a1 /\
  map (fun '(ANotify o _) => o) (events (_clearAgent clk n a1)) =
    [OThoughts; OActions; OExecutionSteps; OMemoryContext].
Proof.
  cbv zeta; rewrite !clearAgent_run; simpl; split; reflexivity.
Qed.

Lemma agent_session_cons (clk : nat -> Z) (n : nat) (a : agent) (x : agent_action)
    (r : list agent_action) :
  agent_session clk n a (x :: r) =
    let '(_, (n1, a1, _)) := agent_op x clk n a in agent_session clk n1 a1 r.
Proof. reflexivity. Qed.

Lemma session_after_clear (clk : nat -> Z) (xs : list agent_action) :
  forall n a, _actions a = [] -> _executionSteps a = [] -> _memoryContext a = [] ->
  Forall command_thought (_thoughts a) ->
  let b := agent_session clk n a xs in
  _actions b = [] /\ _executionSteps b = [] /\ _memoryContext b = [] /\
  Forall command_thought (_thoughts b) /\
  (~ In AgClear xs ->
     List.length (_thoughts b) = List.length (_thoughts a) + List.length (filter counted xs)).
Proof.
  induction xs as [|x xs IH]; intros n a Ha Hs Hm Ht; cbv zeta.
  - simpl; repeat split; auto.
  - rewrite agent_session_cons.
    destruct x as [s| |]; cbn [agent_op].
    + destruct (is_empty (trim s)) eqn:E.
      * rewrite (sendAgentCommand_blank s clk n a E).
        destruct (IH n a Ha Hs Hm Ht) as (H1 & H2 & H3 & H4 & H5).
        repeat split; auto.
        intros Hn; rewrite H5 by (intros Hi; apply Hn; right; exact Hi).
        simpl; rewrite E; reflexivity.
      * assert (Hne : trim s <> []) by (intros H; rewrite H in E; discriminate).
        rewrite (sendAgentCommand_run s clk n a Hne).
        match goal with |- context [agent_session clk ?m ?a' xs] =>
          assert (Ht' : Forall command_thought (_thoughts a'));
          [|destruct (IH m a' Ha Hs Hm Ht') as (H1 & H2 & H3 & H4 & H5)] end.
        { apply Forall_app; split; [exact Ht|]; constructor; [|constructor].
          split; [reflexivity | exists s; auto]. }
        repeat split; auto.
        intros Hn; rewrite H5 by (intros Hi; apply Hn; right; exact Hi).
        simpl; rewrite E, length_app; simpl; lia.
    + rewrite togglePause_run.
      match goal with |- context [agent_session clk ?m ?a' xs] =>
        destruct (IH m a' Ha Hs Hm Ht) as (H1 & H2 & H3 & H4 & H5) end.
      repeat split; auto.
      intros Hn; rewrite H5 by (intros Hi; apply Hn; right; exact Hi); reflexivity.
    + rewrite clearAgent_run.
      match goal with |- context [agent_session clk ?m ?a' xs] =>
        destruct (IH m a' eq_refl eq_refl eq_refl (Forall_nil _))
          as (H1 & H2 & H3 & H4 & H5) end.
      repeat split; auto.
      intros Hn; exfalso; apply Hn; left; reflexivity.
Qed.

(** X9: after a clear, whatever the page does next (commands, pause
    toggles, further clears), the action, execution-step and memory lists
    stay empty, so the history tab keeps showing its empty state; the
    thought log holds only [thinking] thoughts [Processing: "<command>"] of
    non-blank commands, one per such command when no further clear
    happens. *)
Theorem cleared_page_stays_empty (clk : nat -> Z) (n : nat) (a : agent)
    (xs : list agent_action) :
  let b := agent_session clk n a (AgClear :: xs) in
  _actions b = [] /\ _executionSteps b = [] /\ _memoryContext b = [] /\
  history_empty_state b = true /\
  Forall command_thought (_thoughts b) /\
  (~ In AgClear xs -> List.length (_thoughts b) = List.length (filter counted xs)).
Proof.
  cbv zeta; rewrite agent_session_cons; cbn [agent_op]; rewrite clearAgent_run.
  match goal with |- context [agent_session clk ?m ?a' xs] =>
    destruct (session_after_clear clk xs m a' eq_refl eq_refl eq_refl (Forall_nil _))
      as (H1 & H2 & H3 & H4 & H5) end.
  unfold history_empty_state; rewrite H1; repeat split; auto.
Qed.

Lemma cleared_page_stays_empty_witness :
  List.length (_thoughts (agent_session (fun _ => 0%Z) 0 (AgentModePage_new (fun _ => 0%Z))
    [AgClear; AgCommand (js "sum"); AgCommand (js " "); AgTogglePause])) = 1.
Proof.
  exact (proj2 (proj2 (proj2 (proj2 (proj2
    (cleared_page_stays_empty (fun _ => 0%Z) 0 (AgentModePage_new (fun _ => 0%Z))
       [AgCommand (js "sum"); AgCommand (js " "); AgTogglePause])))))
    ltac:(simpl; intuition discriminate)).
Defined.
